(** * template001.py: a tool-calling pipeline over the OpenAI responses API

    The script declares one tool ([tools], the function call [get_fruits]),
    one handler ([fetch_fruits]) and then runs a fixed pipeline: one
    [client.responses.create] call, two appends to the message list
    [inputs], one [client.responses.parse] call, one [print].

    The third-party libraries the script calls ([json], [requests], the
    OpenAI client) are not part of the script; they are taken as a
    [Runtime] record of functions, and every call to them is recorded in a
    trace.  Python exceptions are explicit results: the script has no
    [try] statement, so an exception ends the run where it is raised.
    Reading the environment (lines 23-33) and building the client (line
    131) are not modelled. *)

From Stdlib Require Import String Ascii List ZArith Bool Lia.
From Stdlib Require Import Floats.SpecFloat DecimalString.
Import ListNotations.
Local Open Scope string_scope.
Set Warnings "-register-all".

(** ** Python values *)

(** What [json.loads] produces and [json.dumps] consumes.  A [dict] keeps
    its items as an association list, one item per key; only lookup by
    key is used. *)
Inductive value : Type :=
| VNone
| VBool (b : bool)
| VInt (z : Z)
| VFloat (f : spec_float)
| VStr (s : string)
| VList (l : list value)
| VDict (d : list (string * value)).

(** The exceptions a run can end with.  [LibraryError cls] is an exception
    of class [cls] raised inside [requests] or the OpenAI client. *)
Inductive exn : Type :=
| IndexError
| AttributeError (attr : string)
| KeyError (key : string)
| TypeError
| JSONDecodeError
| RequestsJSONDecodeError
| LibraryError (cls : string).

Inductive result (A : Type) : Type :=
| Returned (a : A)
| Raised (e : exn).
Arguments Returned {A} a.
Arguments Raised {A} e.

(** ** The objects of the responses API *)

(** An item of [response.output]: a function call (it has [call_id], [name]
    and [arguments]) or an output message (it has none of them). *)
Inductive OutputItem : Type :=
| FunctionCall (call_id name arguments : string)
| Message (text : string).

(** [ParsedResponseFunctionToolCall.arguments] *)
Definition arguments_of (c : OutputItem) : result string :=
  match c with
  | FunctionCall _ _ a => Returned a
  | Message _ => Raised (AttributeError "arguments")
  end.

(** [item.call_id] *)
Definition call_id_of (c : OutputItem) : result string :=
  match c with
  | FunctionCall cid _ _ => Returned cid
  | Message _ => Raised (AttributeError "call_id")
  end.

(** An element of the list [inputs]: a role/content dict, an output item
    appended as it came, or a [function_call_output] dict. *)
Inductive InputItem : Type :=
| RoleMessage (role content : string)
| OutputItemEntry (item : OutputItem)
| FunctionCallOutput (call_id output : string).

(** The pydantic models (lines 48-55). *)
Record ExampleModel : Type := {
  field_1 : Z;
  field_2 : string;
  field_3 : Z * Z;
  field_4 : spec_float
}.

Record ExampleModels : Type := {
  example_models : list ExampleModel
}.

Record Response : Type := {
  output : list OutputItem;
  output_parsed : option ExampleModels
}.

Record HttpResponse : Type := {
  status_code : Z;
  content : string
}.

(** The function-call declaration (lines 60-89). *)
Record Property : Type := {
  prop_name : string;
  prop_type : string;
  prop_enum : option (list string);
  prop_description : string
}.

Record Tool : Type := {
  tool_type : string;
  tool_name : string;
  tool_description : string;
  parameters_type : string;
  properties : list Property;
  required : list string;
  additionalProperties : bool;
  strict : bool
}.

Definition tools : list Tool :=
  [ {| tool_type := "function";
       tool_name := "get_fruits";
       tool_description :=
         "Get fruits with a nutritional value with a specific range.";
       parameters_type := "object";
       properties :=
         [ {| prop_name := "nutrition_name";
              prop_type := "string";
              prop_enum :=
                Some ["sugar"; "protein"; "fat"; "carbohydrates"; "calories"];
              prop_description := "Name of the nutritional value." |};
           {| prop_name := "min_value";
              prop_type := "number";
              prop_enum := None;
              prop_description := "Minimum value of the nutritional value." |};
           {| prop_name := "max_value";
              prop_type := "number";
              prop_enum := None;
              prop_description := "Maximum value of the nutritional value." |} ];
       required := ["nutrition_name"; "min_value"; "max_value"];
       additionalProperties := false;
       strict := true |} ].

(** ** Calls that leave the script *)

Inductive printed : Type :=
| PContent (body : string)
| PParsed (p : option ExampleModels).

Inductive Event : Type :=
| EvGet (url : string) (params : list (string * value))
| EvPost (url : string) (data : list (string * value))
| EvCreate (model : string) (input : list InputItem) (tools : list Tool)
| EvParse (model : string) (input : list InputItem) (tools : list Tool)
          (text_format : string)
| EvPrint (p : printed).

(** The libraries.  An answer may depend on everything that happened
    before the call (the trace so far) and on the call's arguments.
    [json_loads] answers [None] where [json.loads] raises its decode error;
    [py_str] is [str()] as an f-string applies it to a value that is not
    itself a [str]. *)
Record Runtime : Type := {
  json_loads : string -> option value;
  json_dumps : value -> string;
  py_str : value -> string;
  requests_get :
    list Event -> string -> list (string * value) -> exn + HttpResponse;
  requests_post :
    list Event -> string -> list (string * value) -> exn + HttpResponse;
  responses_create :
    list Event -> string -> list InputItem -> list Tool -> exn + Response;
  responses_parse :
    list Event -> string -> list InputItem -> list Tool -> string ->
    exn + Response
}.

(** ** The run monad: the list [inputs], the trace, and exceptions *)

Record State : Type := {
  inputs : list InputItem;
  trace : list Event
}.

Definition M (A : Type) : Type := State -> result A * State.

Definition ret {A} (a : A) : M A := fun s => (Returned a, s).

Definition raise {A} (e : exn) : M A := fun s => (Raised e, s).

Definition bind {A B} (m : M A) (k : A -> M B) : M B :=
  fun s =>
    match m s with
    | (Returned a, s') => k a s'
    | (Raised e, s') => (Raised e, s')
    end.

Declare Scope run_scope.
Delimit Scope run_scope with run.
Notation "x <- m ;; k" := (bind m (fun x => k))
  (at level 61, m at next level, right associativity) : run_scope.
Notation "m ;; k" := (bind m (fun _ => k))
  (at level 61, right associativity) : run_scope.

Definition lift {A} (r : result A) : M A := fun s => (r, s).

Definition log (e : Event) : M unit :=
  fun s => (Returned tt, {| inputs := inputs s; trace := trace s ++ [e] |}).

Definition history : M (list Event) := fun s => (Returned (trace s), s).

(** [inputs = [...]] *)
Definition assign_inputs (l : list InputItem) : M unit :=
  fun s => (Returned tt, {| inputs := l; trace := trace s |}).

(** [inputs] read as an argument of a call *)
Definition read_inputs : M (list InputItem) :=
  fun s => (Returned (inputs s), s).

(** [inputs.append(x)] *)
Definition append (x : InputItem) : M unit :=
  fun s => (Returned tt, {| inputs := inputs s ++ [x]; trace := trace s |}).

Definition of_sum {A} (r : exn + A) : M A :=
  match r with
  | inl e => raise e
  | inr a => ret a
  end.

Section Script.

Variable rt : Runtime.

Local Open Scope run_scope.

(** [requests.get(url, params=params)] *)
Definition get (url : string) (params : list (string * value))
  : M HttpResponse :=
  h <- history ;;
  log (EvGet url params) ;;
  of_sum (requests_get rt h url params).

(** [requests.post(url, data=data)] *)
Definition post (url : string) (data : list (string * value))
  : M HttpResponse :=
  h <- history ;;
  log (EvPost url data) ;;
  of_sum (requests_post rt h url data).

(** [client.responses.create(model=..., input=..., tools=...)] *)
Definition create (model : string) (input : list InputItem) (ts : list Tool)
  : M Response :=
  h <- history ;;
  log (EvCreate model input ts) ;;
  of_sum (responses_create rt h model input ts).

(** [client.responses.parse(model=..., input=..., tools=..., text_format=...)] *)
Definition parse (model : string) (input : list InputItem) (ts : list Tool)
    (text_format : string) : M Response :=
  h <- history ;;
  log (EvParse model input ts text_format) ;;
  of_sum (responses_parse rt h model input ts text_format).

Definition print (p : printed) : M unit := log (EvPrint p).

(** [json.loads(text)] *)
Definition loads (text : string) : result value :=
  match json_loads rt text with
  | Some v => Returned v
  | None => Raised JSONDecodeError
  end.

(** [api_res.json()] *)
Definition response_json (r : HttpResponse) : result value :=
  match json_loads rt (content r) with
  | Some v => Returned v
  | None => Raised RequestsJSONDecodeError
  end.

(** ** Subscription and f-strings *)

Fixpoint dict_get (d : list (string * value)) (k : string) : option value :=
  match d with
  | [] => None
  | (k', v) :: d' => if String.eqb k' k then Some v else dict_get d' k
  end.

(** [obj[key]] for a [str] key: a [dict] is looked up, every other JSON
    value refuses the subscript. *)
Definition subscript (obj : value) (key : string) : result value :=
  match obj with
  | VDict d =>
      match dict_get d key with
      | Some v => Returned v
      | None => Raised (KeyError key)
      end
  | _ => Raised TypeError
  end.

(** [f"{v}"] *)
Definition fstr (v : value) : string :=
  match v with
  | VStr s => s
  | _ => py_str rt v
  end.

(** ** fetch_fruits (lines 93-113) *)

Definition fruit_api_url : string := "https://www.fruityvice.com/api/fruit".

Definition fetch_fruits (parsed_tool_call : OutputItem) : M value :=
  a <- lift (arguments_of parsed_tool_call) ;;
  args_as_json <- lift (loads a) ;;
  vmin <- lift (subscript args_as_json "min_value") ;;
  vmax <- lift (subscript args_as_json "max_value") ;;
  let params := [("min", vmin); ("max", vmax)] in
  nutrition_name <- lift (subscript args_as_json "nutrition_name") ;;
  let url_complete := fruit_api_url ++ "/" ++ fstr nutrition_name in
  api_res <- get url_complete params ;;
  lift (response_json api_res).

(** ** The script *)

(** Lines 37-44: the template requests. *)
Definition url_1 : string := "https://www.fruityvice.com".

Definition request_data : list (string * value) :=
  [("param_1", VStr "value_1"); ("param_2", VStr "value_2")].

Definition template_requests : M unit :=
  req_res_get <- get url_1 request_data ;;
  req_res_post <- post url_1 request_data ;;
  print (PContent (content req_res_get)).

(** Lines 117-126: the initial message list. *)
Definition seed : list InputItem :=
  [ RoleMessage "developer"
      "I am operating a system that is designed to provide responses to users within a defined scope.";
    RoleMessage "user"
      "This should be a request to the system that is within the scope of its design." ].

(** [lst[0]] *)
Definition index0 {A} (l : list A) : result A :=
  match l with
  | x :: _ => Returned x
  | [] => Raised IndexError
  end.

Definition placeholder : string :=
  "output of the method that executed the function call".

Definition model_name : string := "gpt-4.1-mini".

(** Lines 117-164: the pipeline. *)
Definition pipeline : M unit :=
  assign_inputs seed ;;
  i1 <- read_inputs ;;
  response_1 <- create model_name i1 tools ;;
  first <- lift (index0 (output response_1)) ;;
  append (OutputItemEntry first) ;;
  first' <- lift (index0 (output response_1)) ;;
  cid <- lift (call_id_of first') ;;
  append (FunctionCallOutput cid (json_dumps rt (VStr placeholder))) ;;
  i2 <- read_inputs ;;
  response_2 <- parse model_name i2 tools "ExampleModels" ;;
  print (PParsed (output_parsed response_2)).

(** The whole module, top to bottom. *)
Definition script : M unit :=
  template_requests ;;
  pipeline.

End Script.

Definition init : State := {| inputs := []; trace := [] |}.

(** ** Reading a trace *)

Definition is_get (e : Event) : bool :=
  match e with EvGet _ _ => true | _ => false end.

Definition is_create (e : Event) : bool :=
  match e with EvCreate _ _ _ => true | _ => false end.

Definition is_parse (e : Event) : bool :=
  match e with EvParse _ _ _ _ => true | _ => false end.

Definition get_calls (t : list Event) : nat := length (filter is_get t).
Definition create_calls (t : list Event) : nat := length (filter is_create t).
Definition parse_calls (t : list Event) : nat := length (filter is_parse t).

(** Calls to the completion service, of either kind. *)
Definition service_calls (t : list Event) : nat :=
  create_calls t + parse_calls t.

(** ** Kinds of completion turn *)

Definition is_function_call (i : OutputItem) : bool :=
  match i with FunctionCall _ _ _ => true | Message _ => false end.

(** A turn that carries one or more function calls and nothing else. *)
Definition tool_call_turn (r : Response) : bool :=
  match output r with
  | [] => false
  | l => forallb is_function_call l
  end.

(** A turn that carries the final message. *)
Definition final_turn (r : Response) : bool :=
  match output r with
  | [Message _] => true
  | _ => false
  end.

(** The service answers every call, of either kind, with a tool-call turn. *)
Definition always_requests_tools (rt : Runtime) : Prop :=
  (forall h m i ts, exists r,
      responses_create rt h m i ts = inr r /\ tool_call_turn r = true) /\
  (forall h m i ts f, exists r,
      responses_parse rt h m i ts f = inr r /\ tool_call_turn r = true).

(** The service plays the turns of [turns] in order: its k-th call, of
    either kind, is answered with the k-th turn. *)
Definition serves (rt : Runtime) (turns : list Response) : Prop :=
  (forall h m i ts r, nth_error turns (service_calls h) = Some r ->
      responses_create rt h m i ts = inr r) /\
  (forall h m i ts f r, nth_error turns (service_calls h) = Some r ->
      responses_parse rt h m i ts f = inr r).

(** [n] tool-call turns followed by one final-answer turn. *)
Definition tool_turns_then_final (n : nat) (turns : list Response) : Prop :=
  exists tool_turns final,
    turns = (tool_turns ++ [final])%list /\
    length tool_turns = n /\
    forallb tool_call_turn tool_turns = true /\
    final_turn final = true.

(** Entries of the message list that request, resp. answer, call [cid]. *)
Definition requests_call (cid : string) (i : InputItem) : bool :=
  match i with
  | OutputItemEntry (FunctionCall c _ _) => String.eqb c cid
  | _ => false
  end.

Definition answers_call (cid : string) (i : InputItem) : bool :=
  match i with
  | FunctionCallOutput c _ => String.eqb c cid
  | _ => false
  end.

(** The declared enumeration of a parameter of a declared tool. *)
Definition declared_enum (ts : list Tool) (tool param : string)
  : option (list string) :=
  match find (fun t => String.eqb (tool_name t) tool) ts with
  | None => None
  | Some t =>
      match find (fun p => String.eqb (prop_name p) param) (properties t) with
      | None => None
      | Some p => prop_enum p
      end
  end.

Definition declared (ts : list Tool) (tool : string) : bool :=
  existsb (fun t => String.eqb (tool_name t) tool) ts.

Definition mem (x : string) (l : list string) : bool :=
  existsb (String.eqb x) l.

(** ** Test doubles for the libraries

    Concrete runs need concrete libraries.  The doubles below cover the
    documents of the scenarios: values without floats whose strings need
    no escape.  On those, [plain_dumps] prints what [json.dumps] prints,
    and [table_loads] reads back exactly the texts of [documents]; every
    other text is treated as one that [json.loads] refuses. *)

Definition dq : string := String "034"%char EmptyString.

Definition quoted (s : string) : string := dq ++ s ++ dq.

Definition decimal (z : Z) : string :=
  NilZero.string_of_int (Z.to_int z).

Fixpoint plain_dumps (v : value) : string :=
  match v with
  | VNone => "null"
  | VBool true => "true"
  | VBool false => "false"
  | VInt z => decimal z
  | VFloat _ => EmptyString
  | VStr s => quoted s
  | VList l => "[" ++ String.concat ", " (map plain_dumps l) ++ "]"
  | VDict d =>
      "{" ++ String.concat ", "
               (map (fun '(k, x) => quoted k ++ ": " ++ plain_dumps x) d)
          ++ "}"
  end.

Definition plain_str (v : value) : string :=
  match v with
  | VNone => "None"
  | VBool true => "True"
  | VBool false => "False"
  | VInt z => decimal z
  | VStr s => s
  | _ => EmptyString
  end.

(** Argument payloads. *)
Definition range_args (nutrition : string) : value :=
  VDict [("nutrition_name", VStr nutrition);
         ("min_value", VInt 0); ("max_value", VInt 5)].

(** no [max_value] *)
Definition args_without_max : value :=
  VDict [("nutrition_name", VStr "sugar"); ("min_value", VInt 0)].

(** a string where a number is declared, and an undeclared member *)
Definition args_off_schema : value :=
  VDict [("nutrition_name", VStr "sugar"); ("min_value", VStr "low");
         ("max_value", VInt 5); ("unit", VStr "g")].

(** The body the fruit API double answers with. *)
Definition fruits : value :=
  VList [VDict [("name", VStr "Avocado"); ("id", VInt 84)];
         VDict [("name", VStr "Lime"); ("id", VInt 44)]].

Definition documents : list value :=
  [range_args "sugar"; range_args "protein"; range_args "vitamins";
   args_without_max; args_off_schema; fruits].

Definition table_loads (text : string) : option value :=
  find (fun v => String.eqb (plain_dumps v) text) documents.

(** A runtime from a completion service: the JSON doubles above, and a
    fruit API that answers every request with status 200 and [fruits]. *)
Definition runtime_with
    (create_fn : list Event -> exn + Response)
    (parse_fn : list Event -> exn + Response) : Runtime :=
  {| json_loads := table_loads;
     json_dumps := plain_dumps;
     py_str := plain_str;
     requests_get := fun _ _ _ =>
       inr {| status_code := 200; content := plain_dumps fruits |};
     requests_post := fun _ _ _ =>
       inr {| status_code := 200; content := plain_dumps fruits |};
     responses_create := fun h _ _ _ => create_fn h;
     responses_parse := fun h _ _ _ _ => parse_fn h |}.

(** A service that plays [turns] in order, and then is out of service. *)
Definition play (turns : list Response) (h : list Event) : exn + Response :=
  match nth_error turns (service_calls h) with
  | Some r => inr r
  | None => inl (LibraryError "openai.APIConnectionError")
  end.

Definition scripted (turns : list Response) : Runtime :=
  runtime_with (play turns) (play turns).

Definition call (cid name : string) (args : value) : OutputItem :=
  FunctionCall cid name (plain_dumps args).

Definition tool_turn (calls : list OutputItem) : Response :=
  {| output := calls; output_parsed := None |}.

Definition final_answer (text : string) (p : option ExampleModels) : Response :=
  {| output := [Message text]; output_parsed := p |}.

Definition sugar_call : OutputItem := call "call_1" "get_fruits" (range_args "sugar").
Definition protein_call : OutputItem := call "call_2" "get_fruits" (range_args "protein").


(** A service that asks for the sugar call on every turn. *)
Definition looping : Runtime :=
  runtime_with (fun _ => inr (tool_turn [sugar_call]))
               (fun _ => inr (tool_turn [sugar_call])).


(** A service whose first turn asks for two calls at once. *)
Definition batch : Runtime :=
  scripted [tool_turn [sugar_call; protein_call]; final_answer "done" None].

(** A service that asks for one call and then answers. *)
Definition one_call (c : OutputItem) : Runtime :=
  scripted [tool_turn [c]; final_answer "done" None].

(** Two tool-call turns, then the final answer. *)
Definition three_turns : list Response :=
  [tool_turn [sugar_call]; tool_turn [protein_call]; final_answer "done" None].

(** ** Shapes of a run *)

(** The state after [requests.get(url, params=params)] was called. *)
Definition after_get (s : State) (url : string)
    (params : list (string * value)) : State :=
  {| inputs := inputs s; trace := (trace s ++ [EvGet url params])%list |}.

(** The URL [fetch_fruits] builds from the looked-up [nutrition_name]. *)
Definition url_for (rt : Runtime) (nutrition_name : value) : string :=
  fruit_api_url ++ "/" ++ fstr rt nutrition_name.

(** The message list after the two appends of lines 144-152. *)
Definition answered (rt : Runtime) (first : OutputItem) (cid : string)
  : list InputItem :=
  (seed ++ [OutputItemEntry first;
            FunctionCallOutput cid (json_dumps rt (VStr placeholder))])%list.

Definition create_event : Event := EvCreate model_name seed tools.

Definition parse_event (i : list InputItem) : Event :=
  EvParse model_name i tools "ExampleModels".


(** The three keys [fetch_fruits] reads. *)
Definition read_keys : list string :=
  ["min_value"; "max_value"; "nutrition_name"].

(** ** More test doubles *)

Definition loads_from (docs : list value) (text : string) : option value :=
  find (fun v => String.eqb (plain_dumps v) text) docs.

(** A runtime that reads back the texts of [docs], whose web server gives
    [get_answer] to every GET and [post_answer] to every POST, and whose
    completion service plays [turns]. *)
Definition double (docs : list value)
    (get_answer post_answer : exn + HttpResponse)
    (turns : list Response) : Runtime :=
  {| json_loads := loads_from docs;
     json_dumps := plain_dumps;
     py_str := plain_str;
     requests_get := fun _ _ _ => get_answer;
     requests_post := fun _ _ _ => post_answer;
     responses_create := fun h _ _ _ => play turns h;
     responses_parse := fun h _ _ _ _ => play turns h |}.

Definition answer (status : Z) (body : value) : exn + HttpResponse :=
  inr {| status_code := status; content := plain_dumps body |}.

Definition connection_error : exn + HttpResponse :=
  inl (LibraryError "requests.exceptions.ConnectionError").

(** only [nutrition_name] *)
Definition args_only_name : value :=
  VDict [("nutrition_name", VStr "sugar")].

(** the sugar range in another order, with one more member *)
Definition args_reordered : value :=
  VDict [("unit", VStr "g"); ("max_value", VInt 5);
         ("nutrition_name", VStr "sugar"); ("min_value", VInt 0)].

(** the body of an error answer *)
Definition not_found : value := VDict [("error", VStr "Not found")].

(** ** Reading a document and a trace, continued *)

Definition missing (d : list (string * value)) (k : string) : bool :=
  match dict_get d k with
  | None => true
  | Some _ => false
  end.

(** The first of the keys read, in reading order, that [d] lacks. *)
Definition first_missing (d : list (string * value)) : option string :=
  find (missing d) read_keys.

Definition is_dict (v : value) : bool :=
  match v with
  | VDict _ => true
  | _ => false
  end.

Definition is_post (e : Event) : bool :=
  match e with EvPost _ _ => true | _ => false end.

Definition is_print (e : Event) : bool :=
  match e with EvPrint _ => true | _ => false end.

Definition post_event : Event := EvPost url_1 request_data.

Definition get_event : Event := EvGet url_1 request_data.

(** ** Services and failures, continued *)

(** The create calls of the service play the turns of [turns] in order.
    Nothing is asked of its parse calls, which may answer or raise. *)
Definition create_serves (rt : Runtime) (turns : list Response) : Prop :=
  forall h m i ts r, nth_error turns (service_calls h) = Some r ->
    responses_create rt h m i ts = inr r.

(** A service that plays [turns] on create calls and whose parse calls
    end in a validation error. *)
Definition parse_rejecting (turns : list Response) : Runtime :=
  runtime_with (play turns)
               (fun _ => inl (LibraryError "pydantic.ValidationError")).





(** * Properties *)

(** ** Counting calls *)

Lemma get_calls_snoc t e :
  get_calls (t ++ [e]) = get_calls t + (if is_get e then 1 else 0).
Proof.
  unfold get_calls. rewrite filter_app, length_app. simpl.
  destruct (is_get e); reflexivity.
Qed.

Lemma create_calls_snoc t e :
  create_calls (t ++ [e]) = create_calls t + (if is_create e then 1 else 0).
Proof.
  unfold create_calls. rewrite filter_app, length_app. simpl.
  destruct (is_create e); reflexivity.
Qed.

Lemma parse_calls_snoc t e :
  parse_calls (t ++ [e]) = parse_calls t + (if is_parse e then 1 else 0).
Proof.
  unfold parse_calls. rewrite filter_app, length_app. simpl.
  destruct (is_parse e); reflexivity.
Qed.

Ltac count_calls :=
  repeat (rewrite ?get_calls_snoc, ?create_calls_snoc, ?parse_calls_snoc;
          simpl is_get; simpl is_create; simpl is_parse; cbv iota);
  try lia.

(** ** The two code paths, case by case *)

Lemma fetch_fruits_cases rt cid name a s :
  fetch_fruits rt (FunctionCall cid name a) s =
  match json_loads rt a with
  | None => (Raised JSONDecodeError, s)
  | Some (VDict d) =>
      match dict_get d "min_value" with
      | None => (Raised (KeyError "min_value"), s)
      | Some vmin =>
          match dict_get d "max_value" with
          | None => (Raised (KeyError "max_value"), s)
          | Some vmax =>
              match dict_get d "nutrition_name" with
              | None => (Raised (KeyError "nutrition_name"), s)
              | Some nut =>
                  let url := url_for rt nut in
                  let params := [("min", vmin); ("max", vmax)] in
                  match requests_get rt (trace s) url params with
                  | inl e => (Raised e, after_get s url params)
                  | inr api_res =>
                      (response_json rt api_res, after_get s url params)
                  end
              end
          end
      end
  | Some _ => (Raised TypeError, s)
  end.
Proof.
  unfold fetch_fruits, bind, lift, loads; simpl.
  destruct (json_loads rt a) as [[ | | | | | | d]|]; try reflexivity.
  unfold subscript.
  destruct (dict_get d "min_value"); [|reflexivity].
  destruct (dict_get d "max_value"); [|reflexivity].
  destruct (dict_get d "nutrition_name"); [|reflexivity].
  unfold get, bind, history, log, of_sum, url_for, after_get; simpl.
  destruct (requests_get rt (trace s) _ _); reflexivity.
Qed.

Lemma pipeline_cases rt s :
  pipeline rt s =
  match responses_create rt (trace s) model_name seed tools with
  | inl e => (Raised e, {| inputs := seed; trace := trace s ++ [create_event] |})
  | inr r1 =>
      match output r1 with
      | [] =>
          (Raised IndexError,
           {| inputs := seed; trace := trace s ++ [create_event] |})
      | Message t :: _ =>
          (Raised (AttributeError "call_id"),
           {| inputs := seed ++ [OutputItemEntry (Message t)];
              trace := trace s ++ [create_event] |})
      | FunctionCall cid name a :: _ =>
          let i2 := answered rt (FunctionCall cid name a) cid in
          let t2 := ((trace s ++ [create_event]) ++ [parse_event i2])%list in
          match responses_parse rt (trace s ++ [create_event]) model_name i2
                  tools "ExampleModels" with
          | inl e => (Raised e, {| inputs := i2; trace := t2 |})
          | inr r2 =>
              (Returned tt,
               {| inputs := i2;
                  trace := t2 ++ [EvPrint (PParsed (output_parsed r2))] |})
          end
      end
  end.
Proof.
  unfold pipeline, create, parse, print, bind, history, log, of_sum,
    assign_inputs, read_inputs, append, lift, raise, ret; simpl.
  destruct (responses_create rt (trace s) model_name seed tools) as [e|r1];
    [reflexivity|].
  destruct (output r1) as [|[cid name a|t] rest]; simpl; try reflexivity.
  unfold answered, parse_event, create_event; simpl.
  destruct (responses_parse rt _ _ _ _ _); reflexivity.
Qed.

(** ** fetch_fruits *)

Section FetchFruits.

Variable rt : Runtime.

(** In an f-string a [str] stands for itself. *)
Lemma url_for_str n :
  url_for rt (VStr n) = "https://www.fruityvice.com/api/fruit/" ++ n.
Proof. reflexivity. Qed.


(** Which key a lookup of the three misses first, in the order the
    function reads them. *)
Lemma fetch_fruits_missing_key cid name a d s :
  json_loads rt a = Some (VDict d) ->
  (exists k, In k read_keys /\ dict_get d k = None) ->
  exists k, In k read_keys /\ dict_get d k = None /\
            fetch_fruits rt (FunctionCall cid name a) s = (Raised (KeyError k), s).
Proof.
  intros Hload Hmiss. rewrite fetch_fruits_cases, Hload.
  destruct (dict_get d "min_value") eqn:Hmin.
  2:{ exists "min_value". simpl. auto. }
  destruct (dict_get d "max_value") eqn:Hmax.
  2:{ exists "max_value". simpl. auto. }
  destruct (dict_get d "nutrition_name") eqn:Hnut.
  2:{ exists "nutrition_name". simpl. auto 6. }
  exfalso. destruct Hmiss as (k & Hk & Hnone). simpl in Hk.
  destruct Hk as [<-|[<-|[<-|[]]]]; congruence.
Qed.

(** Claim C10.  fetch_fruits does not validate its input: when the
    arguments are not valid JSON, or are a JSON object that lacks one of
    min_value, max_value, nutrition_name, the call ends with an exception
    (the JSON decode error, resp. a KeyError for one of the three keys)
    that nothing catches: no value is returned, no request is made and the
    state is as before the call. *)
Theorem fetch_fruits_unvalidated cid name a s :
  json_loads rt a = None \/
  (exists d, json_loads rt a = Some (VDict d) /\
             exists k, In k read_keys /\ dict_get d k = None) ->
  exists e,
    fetch_fruits rt (FunctionCall cid name a) s = (Raised e, s) /\
    (json_loads rt a = None -> e = JSONDecodeError) /\
    (json_loads rt a <> None ->
     exists k, In k read_keys /\ e = KeyError k).
Proof.
  intros [Hbad|(d & Hload & Hmiss)].
  - exists JSONDecodeError. rewrite fetch_fruits_cases, Hbad.
    repeat split; auto. congruence.
  - destruct (fetch_fruits_missing_key cid name a d s Hload Hmiss)
      as (k & Hk & _ & Hrun).
    exists (KeyError k). repeat split; eauto. congruence.
Qed.

(** Claim C4, as the code has it.  fetch_fruits looks neither at the name
    of the tool nor at the declared schema.  Two calls with the same
    arguments text run alike whatever their names; the request is made
    exactly when the arguments decode to an object that has the three keys
    read, whatever their values and whatever else the object holds; and
    when no request is made the call ends with the JSON decode error, a
    TypeError (the document is not an object) or a KeyError for one of the
    three keys, the state unchanged. *)
Theorem fetch_fruits_no_schema_check cid name a s :
  (forall cid' name',
      fetch_fruits rt (FunctionCall cid' name' a) s =
      fetch_fruits rt (FunctionCall cid name a) s) /\
  (get_calls (trace (snd (fetch_fruits rt (FunctionCall cid name a) s)))
     = get_calls (trace s) + 1 <->
   exists d, json_loads rt a = Some (VDict d) /\
             forall k, In k read_keys -> dict_get d k <> None) /\
  (get_calls (trace (snd (fetch_fruits rt (FunctionCall cid name a) s)))
     = get_calls (trace s) + 1 \/
   exists e, fetch_fruits rt (FunctionCall cid name a) s = (Raised e, s) /\
             (e = JSONDecodeError \/ e = TypeError \/
              exists k, In k read_keys /\ e = KeyError k)).
Proof.
  split; [intros; rewrite !fetch_fruits_cases; reflexivity|].
  rewrite fetch_fruits_cases.
  destruct (json_loads rt a) as [v|] eqn:Hload.
  2:{ simpl. split.
      - split; [lia|intros (d & Hd & _); discriminate].
      - right. eexists. split; [reflexivity|auto]. }
  destruct v as [ | | | | | |d];
    try (simpl; split;
         [split; [lia|intros (d & Hd & _); discriminate]
         |right; eexists; split; [reflexivity|auto]]).
  destruct (dict_get d "min_value") as [vmin|] eqn:Hmin.
  2:{ simpl. split.
      - split; [lia|]. intros (d' & Hd & Hall). injection Hd as <-.
        exfalso. apply (Hall "min_value"); simpl; auto.
      - right. eexists. split; [reflexivity|].
        right; right. exists "min_value". simpl; auto. }
  destruct (dict_get d "max_value") as [vmax|] eqn:Hmax.
  2:{ simpl. split.
      - split; [lia|]. intros (d' & Hd & Hall). injection Hd as <-.
        exfalso. apply (Hall "max_value"); simpl; auto.
      - right. eexists. split; [reflexivity|].
        right; right. exists "max_value". simpl; auto. }
  destruct (dict_get d "nutrition_name") as [nut|] eqn:Hnut.
  2:{ simpl. split.
      - split; [lia|]. intros (d' & Hd & Hall). injection Hd as <-.
        exfalso. apply (Hall "nutrition_name"); simpl; auto.
      - right. eexists. split; [reflexivity|].
        right; right. exists "nutrition_name". simpl; auto 6. }
  cbv zeta.
  assert (Hcount :
    get_calls (trace (after_get s (url_for rt nut) [("min", vmin); ("max", vmax)]))
    = get_calls (trace s) + 1).
  { unfold after_get; simpl. count_calls. }
  destruct (requests_get rt (trace s) _ _); simpl snd; (split; [split|]);
    auto; intros _; exists d; (split; [reflexivity|]);
    intros k Hk; simpl in Hk;
    destruct Hk as [<-|[<-|[<-|[]]]]; congruence.
Qed.

End FetchFruits.

(** ** The pipeline *)

Section Pipeline.

Variable rt : Runtime.

(** Claim C1, as the code has it.  The pipeline has no loop and no
    iteration cap.  For every completion service, a run is over after
    exactly one responses.create call and at most one responses.parse call;
    when it ends with an exception, that is the IndexError of [output[0]],
    the AttributeError of [.call_id], or an exception the service itself
    raised: the pipeline has no iteration-limit failure of its own. *)
Theorem pipeline_two_service_calls s :
  create_calls (trace (snd (pipeline rt s))) = create_calls (trace s) + 1 /\
  parse_calls (trace (snd (pipeline rt s))) <= parse_calls (trace s) + 1 /\
  service_calls (trace (snd (pipeline rt s))) <= service_calls (trace s) + 2 /\
  (forall e, fst (pipeline rt s) = Raised e ->
     e = IndexError \/ e = AttributeError "call_id" \/
     (exists h m i ts, responses_create rt h m i ts = inl e) \/
     (exists h m i ts f, responses_parse rt h m i ts f = inl e)).
Proof.
  rewrite pipeline_cases. unfold service_calls.
  destruct (responses_create rt (trace s) model_name seed tools)
    as [e1|r1] eqn:Hc.
  { simpl. unfold create_event. count_calls. repeat split; try lia.
    intros e [= <-]. right; right; left. eauto. }
  destruct (output r1) as [|[cid name a|t] rest].
  - simpl. unfold create_event. count_calls. repeat split; try lia.
    intros e [= <-]. auto.
  - cbv zeta.
    destruct (responses_parse rt _ _ _ _ _) as [e2|r2] eqn:Hp;
      simpl; unfold create_event, parse_event; count_calls;
      repeat split; try lia.
    + intros e [= <-]. right; right; right. eauto 6.
    + intros e [=].
  - simpl. unfold create_event. count_calls. repeat split; try lia.
    intros e [= <-]. auto.
Qed.

(** The first turn of a service that plays tool-call turns asks for a
    function call. *)
Lemma tool_call_turn_first r :
  tool_call_turn r = true ->
  exists cid name a rest, output r = FunctionCall cid name a :: rest.
Proof.
  unfold tool_call_turn. destruct (output r) as [|[cid name a|t] rest].
  - discriminate.
  - eauto.
  - simpl. discriminate.
Qed.

(** Claim C2, as the code has it.  When the create calls of the service
    play N tool-call turns followed by one final-answer turn and N is at
    least 1, the pipeline calls responses.create exactly once and
    responses.parse exactly once, whatever N is and whether the parse call
    answers or raises. *)
Theorem tool_turns_one_create_one_parse n turns s :
  create_serves rt turns ->
  tool_turns_then_final n turns ->
  1 <= n ->
  service_calls (trace s) = 0 ->
  create_calls (trace (snd (pipeline rt s))) = 1 /\
  parse_calls (trace (snd (pipeline rt s))) = 1.
Proof.
  intros Hcreate (tool_turns & final & -> & Hlen & Htools & Hfinal) Hn Hs.
  destruct tool_turns as [|r1 more]; simpl in Hlen; [lia|].
  simpl in Htools. apply andb_true_iff in Htools as [Hr1 _].
  destruct (tool_call_turn_first r1 Hr1) as (cid & name & a & rest & Hout).
  rewrite pipeline_cases.
  rewrite (Hcreate (trace s) model_name seed tools r1)
    by (rewrite Hs; reflexivity).
  rewrite Hout. cbv zeta.
  unfold service_calls in Hs.
  destruct (responses_parse rt _ _ _ _ _); simpl;
    unfold create_event, parse_event; count_calls.
Qed.



End Pipeline.

(** ** Concrete runs *)

Lemma scripted_serves turns : serves (scripted turns) turns.
Proof.
  split; simpl; unfold play; intros; rewrite H; reflexivity.
Qed.

Lemma looping_always_requests_tools : always_requests_tools looping.
Proof.
  split; intros; exists (tool_turn [sugar_call]); split; reflexivity.
Qed.

Lemma three_turns_shape : tool_turns_then_final 2 three_turns.
Proof.
  exists [tool_turn [sugar_call]; tool_turn [protein_call]],
         (final_answer "done" None).
  repeat split.
Qed.

(** Claim C1 fails as stated.  Against a service that asks for a tool call
    on every turn, with a cap of 3 turns, the run does not end in a
    failure after 3 turns: it ends normally after one create call and one
    parse call. *)
Lemma looping_service_run_completes :
  always_requests_tools looping /\
  fst (pipeline looping init) = Returned tt /\
  service_calls (trace (snd (pipeline looping init))) = 2 /\
  ~ ((exists e, fst (pipeline looping init) = Raised e) /\
     service_calls (trace (snd (pipeline looping init))) = 3).
Proof.
  split; [exact looping_always_requests_tools|].
  split; [reflexivity|]. split; [reflexivity|].
  intros [_ H]. vm_compute in H. discriminate.
Qed.

(** Claim C2 fails as stated.  Against two tool-call turns followed by
    the final answer, the pipeline makes one create call, not three. *)
Lemma two_tool_turns_single_create :
  serves (scripted three_turns) three_turns /\
  tool_turns_then_final 2 three_turns /\
  create_calls (trace (snd (pipeline (scripted three_turns) init))) = 1 /\
  ~ (create_calls (trace (snd (pipeline (scripted three_turns) init))) = 2 + 1
     /\ parse_calls (trace (snd (pipeline (scripted three_turns) init))) = 1).
Proof.
  split; [apply scripted_serves|]. split; [exact three_turns_shape|].
  split; [reflexivity|].
  intros [H _]. vm_compute in H. discriminate.
Qed.

Lemma parse_rejecting_create_serves turns :
  create_serves (parse_rejecting turns) turns.
Proof.
  intros h m i ts r H. simpl. unfold play. rewrite H. reflexivity.
Qed.

Lemma tool_turns_one_create_one_parse_witness :
  create_serves (parse_rejecting three_turns) three_turns /\
  tool_turns_then_final 2 three_turns /\
  1 <= 2 /\
  fst (pipeline (parse_rejecting three_turns) init)
    = Raised (LibraryError "pydantic.ValidationError") /\
  create_calls (trace (snd (pipeline (parse_rejecting three_turns) init))) = 1 /\
  parse_calls (trace (snd (pipeline (parse_rejecting three_turns) init))) = 1.
Proof.
  split; [apply parse_rejecting_create_serves|].
  split; [exact three_turns_shape|].
  split; [lia|]. split; [reflexivity|].
  apply (tool_turns_one_create_one_parse (parse_rejecting three_turns) 2
           three_turns init).
  - apply parse_rejecting_create_serves.
  - exact three_turns_shape.
  - lia.
  - reflexivity.
Defined.

Lemma pipeline_two_service_calls_witness :
  create_calls (trace (snd (pipeline looping init))) = 1.
Proof.
  exact (proj1 (pipeline_two_service_calls looping init)).
Defined.

(** Claim C3 fails on the code.  When the first response asks for two
    calls, call_1 and call_2, only call_1 and a result for call_1 reach
    the message list that is passed to responses.parse; call_2 is neither
    appended nor answered. *)
Theorem batch_only_first_call_answered :
  output (tool_turn [sugar_call; protein_call]) = [sugar_call; protein_call] /\
  responses_create batch [] model_name seed tools
    = inr (tool_turn [sugar_call; protein_call]) /\
  inputs (snd (pipeline batch init)) =
    (seed ++ [OutputItemEntry sugar_call;
              FunctionCallOutput "call_1" (quoted placeholder)])%list /\
  In (EvParse model_name
        (seed ++ [OutputItemEntry sugar_call;
                  FunctionCallOutput "call_1" (quoted placeholder)])
        tools "ExampleModels")
     (trace (snd (pipeline batch init))) /\
  existsb (requests_call "call_2") (inputs (snd (pipeline batch init))) = false /\
  existsb (answers_call "call_2") (inputs (snd (pipeline batch init))) = false.
Proof.
  repeat split; try reflexivity.
  vm_compute. auto.
Qed.

(** Claim C4 fails as stated.  A call under a name that is not declared, a
    call whose nutrition_name is outside the declared enumeration, and a
    call with a string for min_value and an undeclared member all reach
    the fruit API and return its answer. *)
Lemma fetch_fruits_accepts_off_schema :
  declared tools "get_vegetables" = false /\
  fetch_fruits (scripted [])
    (call "call_1" "get_vegetables" (range_args "sugar")) init
    = (Returned fruits,
       after_get init "https://www.fruityvice.com/api/fruit/sugar"
         [("min", VInt 0); ("max", VInt 5)]) /\
  declared_enum tools "get_fruits" "nutrition_name"
    = Some ["sugar"; "protein"; "fat"; "carbohydrates"; "calories"] /\
  mem "vitamins" ["sugar"; "protein"; "fat"; "carbohydrates"; "calories"]
    = false /\
  fetch_fruits (scripted [])
    (call "call_2" "get_fruits" (range_args "vitamins")) init
    = (Returned fruits,
       after_get init "https://www.fruityvice.com/api/fruit/vitamins"
         [("min", VInt 0); ("max", VInt 5)]) /\
  fetch_fruits (scripted [])
    (call "call_3" "get_fruits" args_off_schema) init
    = (Returned fruits,
       after_get init "https://www.fruityvice.com/api/fruit/sugar"
         [("min", VStr "low"); ("max", VInt 5)]) /\
  ~ (exists e,
        fetch_fruits (scripted [])
          (call "call_2" "get_fruits" (range_args "vitamins")) init
        = (Raised e, init)).
Proof.
  repeat split. intros (e & H). discriminate.
Qed.

Lemma fetch_fruits_no_schema_check_witness :
  fetch_fruits (scripted [])
    (call "call_1" "get_vegetables" (range_args "vitamins")) init =
  fetch_fruits (scripted [])
    (call "call_2" "get_fruits" (range_args "vitamins")) init.
Proof.
  exact (proj1 (fetch_fruits_no_schema_check (scripted []) "call_2"
                  "get_fruits" (plain_dumps (range_args "vitamins")) init)
               "call_1" "get_vegetables").
Defined.

(** Claim C5 fails on the code.  For the call
    get_fruits(nutrition_name=sugar, min_value=0, max_value=5) the handler
    would return the two fruit records, but the pipeline never runs it (no
    request reaches the fruit API) and the result entry holds the JSON
    text of the placeholder string, which is not the text of the handler's
    result. *)
Theorem handler_result_not_appended :
  fetch_fruits (one_call sugar_call) sugar_call init
    = (Returned fruits,
       after_get init "https://www.fruityvice.com/api/fruit/sugar"
         [("min", VInt 0); ("max", VInt 5)]) /\
  get_calls (trace (snd (pipeline (one_call sugar_call) init))) = 0 /\
  inputs (snd (pipeline (one_call sugar_call) init)) =
    (seed ++ [OutputItemEntry sugar_call;
              FunctionCallOutput "call_1"
                (json_dumps (one_call sugar_call) (VStr placeholder))])%list /\
  json_dumps (one_call sugar_call) (VStr placeholder)
    <> json_dumps (one_call sugar_call) fruits.
Proof.
  repeat split. intros H. vm_compute in H. discriminate.
Qed.







Lemma fetch_fruits_unvalidated_witness :
  json_loads (scripted []) (plain_dumps args_without_max)
    = Some args_without_max /\
  dict_get [("nutrition_name", VStr "sugar"); ("min_value", VInt 0)]
    "max_value" = None /\
  exists e,
    fetch_fruits (scripted []) (call "call_1" "get_fruits" args_without_max)
      init = (Raised e, init).
Proof.
  split; [reflexivity|]. split; [reflexivity|].
  destruct (fetch_fruits_unvalidated (scripted []) "call_1" "get_fruits"
              (plain_dumps args_without_max) init) as (e & He & _).
  - right. eexists. split; [reflexivity|].
    exists "max_value". split; [simpl; auto|reflexivity].
  - exists e. exact He.
Defined.

(** * Further properties of the code *)

(** ** fetch_fruits: edges *)

Section FetchFruitsEdges.

Variable rt : Runtime.

Lemma service_calls_after_get s url params :
  service_calls (trace (after_get s url params)) = service_calls (trace s).
Proof. unfold service_calls, after_get; simpl. count_calls. Qed.

(** When the arguments decode to a JSON document that is not an object (a
    list, a string, a number, true, false or null), fetch_fruits ends with
    a TypeError at the first subscript: no request is made and the state
    is as before. *)
Theorem fetch_fruits_not_an_object cid name a v s :
  json_loads rt a = Some v ->
  is_dict v = false ->
  fetch_fruits rt (FunctionCall cid name a) s = (Raised TypeError, s).
Proof.
  intros Hload Hv. rewrite fetch_fruits_cases, Hload.
  destruct v; try reflexivity. discriminate.
Qed.

(** The keys are read in the order min_value, max_value, nutrition_name,
    and the KeyError names the first one the object lacks, whichever
    others are absent too. *)
Theorem fetch_fruits_first_missing_key cid name a d k s :
  json_loads rt a = Some (VDict d) ->
  first_missing d = Some k ->
  fetch_fruits rt (FunctionCall cid name a) s = (Raised (KeyError k), s).
Proof.
  intros Hload Hk. rewrite fetch_fruits_cases, Hload.
  unfold first_missing, read_keys, missing in Hk. simpl in Hk.
  destruct (dict_get d "min_value"); [|injection Hk as <-; reflexivity].
  destruct (dict_get d "max_value"); [|injection Hk as <-; reflexivity].
  destruct (dict_get d "nutrition_name"); [discriminate|].
  injection Hk as <-. reflexivity.
Qed.

(** The status of the HTTP answer is not looked at (raise_for_status is
    commented out): whatever the status code, the result is the body
    decoded as JSON, or the decode error of the body. *)
Theorem fetch_fruits_ignores_status cid name a d vmin vmax nut status body s :
  json_loads rt a = Some (VDict d) ->
  dict_get d "min_value" = Some vmin ->
  dict_get d "max_value" = Some vmax ->
  dict_get d "nutrition_name" = Some nut ->
  requests_get rt (trace s) (url_for rt nut) [("min", vmin); ("max", vmax)]
    = inr {| status_code := status; content := body |} ->
  fst (fetch_fruits rt (FunctionCall cid name a) s) =
    match json_loads rt body with
    | Some v => Returned v
    | None => Raised RequestsJSONDecodeError
    end.
Proof.
  intros Hload Hmin Hmax Hnut Hget.
  rewrite fetch_fruits_cases, Hload, Hmin, Hmax, Hnut. cbv zeta.
  rewrite Hget. reflexivity.
Qed.

(** Only the values under the three keys count: two calls whose argument
    objects agree on min_value, max_value and nutrition_name run alike,
    whatever the order of the members, the other members, the call ids
    and the tool names. *)
Theorem fetch_fruits_same_three_values
    cid1 name1 a1 d1 cid2 name2 a2 d2 s :
  json_loads rt a1 = Some (VDict d1) ->
  json_loads rt a2 = Some (VDict d2) ->
  (forall k, In k read_keys -> dict_get d1 k = dict_get d2 k) ->
  fetch_fruits rt (FunctionCall cid1 name1 a1) s =
  fetch_fruits rt (FunctionCall cid2 name2 a2) s.
Proof.
  intros H1 H2 Hsame. rewrite !fetch_fruits_cases, H1, H2.
  rewrite (Hsame "min_value"), (Hsame "max_value"),
    (Hsame "nutrition_name") by (simpl; auto).
  reflexivity.
Qed.

(** What a call of fetch_fruits can touch.  It leaves the message list as
    it is, never calls the completion service, and adds to the trace
    either nothing or one GET request, whose URL is the fruit API URL
    followed by a slash and a suffix. *)
Theorem fetch_fruits_footprint c s :
  inputs (snd (fetch_fruits rt c s)) = inputs s /\
  service_calls (trace (snd (fetch_fruits rt c s))) = service_calls (trace s) /\
  (trace (snd (fetch_fruits rt c s)) = trace s \/
   exists suffix params,
     trace (snd (fetch_fruits rt c s)) =
       (trace s ++ [EvGet (fruit_api_url ++ "/" ++ suffix) params])%list).
Proof.
  destruct c as [cid name a|t]; [|simpl; auto].
  rewrite fetch_fruits_cases.
  destruct (json_loads rt a) as [v|]; [|simpl; auto].
  destruct v as [ | | | | | |d]; try (simpl; auto).
  destruct (dict_get d "min_value") as [vmin|]; [|simpl; auto].
  destruct (dict_get d "max_value") as [vmax|]; [|simpl; auto].
  destruct (dict_get d "nutrition_name") as [nut|]; [|simpl; auto].
  cbv zeta.
  destruct (requests_get rt (trace s) _ _); simpl snd;
    (split; [reflexivity|]);
    (split; [apply service_calls_after_get|]);
    right; exists (fstr rt nut), [("min", vmin); ("max", vmax)];
    reflexivity.
Qed.

(** A value fetch_fruits returns is always the decoded body of an answer
    to the one GET request it made: it has no other source of results. *)
Theorem fetch_fruits_returns_api_body c v s :
  fst (fetch_fruits rt c s) = Returned v ->
  exists url params api_res,
    trace (snd (fetch_fruits rt c s)) = (trace s ++ [EvGet url params])%list /\
    requests_get rt (trace s) url params = inr api_res /\
    json_loads rt (content api_res) = Some v.
Proof.
  destruct c as [cid name a|t]; [|simpl; discriminate].
  rewrite fetch_fruits_cases.
  destruct (json_loads rt a) as [w|]; [|simpl; discriminate].
  destruct w as [ | | | | | |d]; try (simpl; discriminate).
  destruct (dict_get d "min_value") as [vmin|]; [|simpl; discriminate].
  destruct (dict_get d "max_value") as [vmax|]; [|simpl; discriminate].
  destruct (dict_get d "nutrition_name") as [nut|]; [|simpl; discriminate].
  cbv zeta.
  destruct (requests_get rt (trace s) _ _) as [e|api_res] eqn:Hget;
    [simpl; discriminate|].
  simpl. unfold response_json.
  destruct (json_loads rt (content api_res)) as [body|] eqn:Hbody;
    [|discriminate].
  intros [= <-]. eauto 6.
Qed.

End FetchFruitsEdges.

(** ** The pipeline: edges and invariants *)

Section PipelineEdges.

Variable rt : Runtime.

(** When the first response has an empty output list, [output[0]] raises
    IndexError: the run ends after the create call, the message list is
    still the seed, and responses.parse is not called. *)
Theorem pipeline_empty_output s r :
  responses_create rt (trace s) model_name seed tools = inr r ->
  output r = [] ->
  pipeline rt s =
    (Raised IndexError,
     {| inputs := seed; trace := trace s ++ [create_event] |}).
Proof.
  intros Hc Hout. rewrite pipeline_cases, Hc, Hout. reflexivity.
Qed.

(** When the first response starts with a message (the service answers at
    once instead of asking for a tool), the message is appended to the
    message list and then [.call_id] raises AttributeError: no result
    entry is appended and responses.parse is not called. *)
Theorem pipeline_message_first s r t rest :
  responses_create rt (trace s) model_name seed tools = inr r ->
  output r = Message t :: rest ->
  pipeline rt s =
    (Raised (AttributeError "call_id"),
     {| inputs := seed ++ [OutputItemEntry (Message t)];
        trace := trace s ++ [create_event] |}).
Proof.
  intros Hc Hout. rewrite pipeline_cases, Hc, Hout. reflexivity.
Qed.

(** The pipeline runs to its end exactly when the create call answers with
    a response whose first output item is a function call, whatever
    follows it in the output, and the parse call answers too.  Whenever
    that is so the run made the create call, the parse call on the final
    message list, and one print, of the output_parsed of the parse
    response, in this order. *)
Theorem pipeline_returns_iff s :
  (fst (pipeline rt s) = Returned tt <->
   exists r1 cid name a rest r2,
     responses_create rt (trace s) model_name seed tools = inr r1 /\
     output r1 = FunctionCall cid name a :: rest /\
     responses_parse rt (trace s ++ [create_event]) model_name
       (answered rt (FunctionCall cid name a) cid) tools "ExampleModels"
       = inr r2) /\
  (forall r1 cid name a rest r2,
     responses_create rt (trace s) model_name seed tools = inr r1 ->
     output r1 = FunctionCall cid name a :: rest ->
     responses_parse rt (trace s ++ [create_event]) model_name
       (answered rt (FunctionCall cid name a) cid) tools "ExampleModels"
       = inr r2 ->
     pipeline rt s =
       (Returned tt,
        {| inputs := answered rt (FunctionCall cid name a) cid;
           trace := trace s ++
                    [create_event;
                     parse_event (answered rt (FunctionCall cid name a) cid);
                     EvPrint (PParsed (output_parsed r2))] |})).
Proof.
  rewrite pipeline_cases. split; [split|].
  - destruct (responses_create rt (trace s) model_name seed tools)
      as [e1|r1]; [simpl; discriminate|].
    destruct (output r1) as [|[cid name a|t] rest] eqn:Hout;
      try (simpl; discriminate).
    cbv zeta.
    destruct (responses_parse rt _ _ _ _ _) as [e2|r2] eqn:Hp;
      [simpl; discriminate|].
    intros _. exists r1, cid, name, a, rest, r2. repeat split; auto.
  - intros (r1 & cid & name & a & rest & r2 & -> & -> & Hp).
    cbv zeta. rewrite Hp. reflexivity.
  - intros r1 cid name a rest r2 -> -> Hp. cbv zeta. rewrite Hp.
    rewrite <- !app_assoc. reflexivity.
Qed.

(** The message list only grows from the seed.  After every run it is the
    seed followed by at most two entries; the create call was given the
    seed; a parse call, when there is one, was given the final list, which
    then has exactly two entries after the seed; and both calls were made
    with the same model and the same tools. *)
Theorem pipeline_inputs_grow_from_seed s :
  exists extra new,
    inputs (snd (pipeline rt s)) = (seed ++ extra)%list /\
    length extra <= 2 /\
    trace (snd (pipeline rt s)) = (trace s ++ new)%list /\
    (forall m i ts, In (EvCreate m i ts) new ->
       m = model_name /\ i = seed /\ ts = tools) /\
    (forall m i ts f, In (EvParse m i ts f) new ->
       m = model_name /\ i = (seed ++ extra)%list /\ length extra = 2 /\
       ts = tools /\ f = "ExampleModels").
Proof.
  rewrite pipeline_cases.
  destruct (responses_create rt (trace s) model_name seed tools) as [e1|r1].
  { exists [], [create_event]. simpl. repeat split; try lia.
    - destruct H as [H|[]]. injection H as <- <- <-. reflexivity.
    - destruct H as [H|[]]. injection H as <- <- <-. reflexivity.
    - destruct H as [H|[]]. injection H as <- <- <-. reflexivity.
    - destruct H as [H|[]]; discriminate.
    - destruct H as [H|[]]; discriminate.
    - destruct H as [H|[]]; discriminate.
    - destruct H as [H|[]]; discriminate.
    - destruct H as [H|[]]; discriminate. }
  destruct (output r1) as [|[cid name a|t] rest].
  - exists [], [create_event]. simpl. repeat split; try lia;
      destruct H as [H|[]]; try discriminate;
      injection H as <- <- <-; reflexivity.
  - cbv zeta.
    set (fc := FunctionCall cid name a).
    set (out := FunctionCallOutput cid (json_dumps rt (VStr placeholder))).
    destruct (responses_parse rt _ _ _ _ _) as [e2|r2].
    + exists [OutputItemEntry fc; out],
             [create_event; parse_event (answered rt fc cid)].
      simpl. rewrite <- !app_assoc. simpl.
      repeat split; try lia;
        destruct H as [H|[H|[]]]; try discriminate;
        injection H; intros; subst; reflexivity.
    + exists [OutputItemEntry fc; out],
             [create_event; parse_event (answered rt fc cid);
              EvPrint (PParsed (output_parsed r2))].
      simpl. rewrite <- !app_assoc. simpl.
      repeat split; try lia;
        destruct H as [H|[H|[H|[]]]]; try discriminate;
        injection H; intros; subst; reflexivity.
  - exists [OutputItemEntry (Message t)], [create_event]. simpl.
    repeat split; try lia;
      destruct H as [H|[]]; try discriminate;
      injection H as <- <- <-; reflexivity.
Qed.

(** The events a run of the pipeline adds are completion calls and a
    print: it makes no web request. *)
Lemma pipeline_no_web_request s :
  exists new,
    trace (snd (pipeline rt s)) = (trace s ++ new)%list /\
    forall e, In e new -> is_get e = false /\ is_post e = false.
Proof.
  rewrite pipeline_cases.
  destruct (responses_create rt (trace s) model_name seed tools) as [e1|r1].
  { exists [create_event]. split; [reflexivity|].
    intros e [<-|[]]. split; reflexivity. }
  destruct (output r1) as [|[cid name a|t] rest].
  - exists [create_event]. split; [reflexivity|].
    intros e [<-|[]]. split; reflexivity.
  - cbv zeta. destruct (responses_parse rt _ _ _ _ _) as [e2|r2].
    + eexists [create_event; _]. simpl. rewrite <- !app_assoc.
      split; [reflexivity|].
      intros e [<-|[<-|[]]]; split; reflexivity.
    + eexists [create_event; _; _]. simpl. rewrite <- !app_assoc.
      split; [reflexivity|].
      intros e [<-|[<-|[<-|[]]]]; split; reflexivity.
  - exists [create_event]. split; [reflexivity|].
    intros e [<-|[]]. split; reflexivity.
Qed.

(** ** The whole script *)

Lemma script_cases s :
  script rt s =
  match requests_get rt (trace s) url_1 request_data with
  | inl e => (Raised e, {| inputs := inputs s; trace := trace s ++ [get_event] |})
  | inr g =>
      match requests_post rt (trace s ++ [get_event]) url_1 request_data with
      | inl e =>
          (Raised e,
           {| inputs := inputs s;
              trace := (trace s ++ [get_event]) ++ [post_event] |})
      | inr _ =>
          pipeline rt
            {| inputs := inputs s;
               trace := ((trace s ++ [get_event]) ++ [post_event])
                        ++ [EvPrint (PContent (content g))] |}
      end
  end.
Proof.
  unfold script, template_requests, get, post, print, bind, history, log,
    of_sum, raise, ret, get_event, post_event; simpl.
  destruct (requests_get rt (trace s) url_1 request_data) as [e|g];
    [reflexivity|].
  destruct (requests_post rt _ url_1 request_data) as [e|p]; reflexivity.
Qed.

(** The template requests come first and nothing guards them.  When the
    GET raises, or the GET answers and the POST raises, the script ends
    with that exception: the completion service is never called, the
    message list is not touched and nothing is printed. *)
Theorem script_template_failure s e :
  requests_get rt (trace s) url_1 request_data = inl e \/
  (exists g,
      requests_get rt (trace s) url_1 request_data = inr g /\
      requests_post rt (trace s ++ [get_event]) url_1 request_data = inl e) ->
  fst (script rt s) = Raised e /\
  inputs (snd (script rt s)) = inputs s /\
  service_calls (trace (snd (script rt s))) = service_calls (trace s) /\
  length (filter is_print (trace (snd (script rt s))))
    = length (filter is_print (trace s)).
Proof.
  intros [Hg|(g & Hg & Hp)]; rewrite script_cases, Hg; [|rewrite Hp];
    simpl; unfold service_calls, get_event, post_event;
    rewrite ?filter_app, ?length_app; simpl; count_calls.
  all: repeat split; lia.
Qed.

(** The web requests of a run are the two template requests and no other:
    every GET and every POST the script makes goes to url_1 with
    request_data.  No request to the fruit API endpoint is ever made, that
    is, no run of the script reaches fetch_fruits. *)
Theorem script_only_template_requests s :
  exists new,
    trace (snd (script rt s)) = (trace s ++ new)%list /\
    length (filter is_get new) = 1 /\
    length (filter is_post new) <= 1 /\
    (forall url params, In (EvGet url params) new ->
       url = url_1 /\ params = request_data) /\
    (forall url data, In (EvPost url data) new ->
       url = url_1 /\ data = request_data).
Proof.
  rewrite script_cases.
  destruct (requests_get rt (trace s) url_1 request_data) as [e|g].
  { exists [get_event]. simpl. repeat split; try lia;
      destruct H as [H|[]]; try discriminate;
      injection H as <- <-; reflexivity. }
  destruct (requests_post rt _ url_1 request_data) as [e|p].
  { exists [get_event; post_event]. simpl. rewrite <- !app_assoc. simpl.
    repeat split; try lia;
      destruct H as [H|[H|[]]]; try discriminate;
      injection H as <- <-; reflexivity. }
  match goal with |- context [pipeline rt ?s0] =>
    destruct (pipeline_no_web_request s0) as (new & Hnew & Hclean);
    rewrite Hnew
  end.
  assert (Hg : filter is_get new = []).
  { clear Hnew. induction new as [|x new IH]; [reflexivity|]. simpl.
    destruct (Hclean x (or_introl eq_refl)) as [-> _].
    apply IH. intros y Hy. apply Hclean. right. exact Hy. }
  assert (Hp : filter is_post new = []).
  { clear Hnew Hg. induction new as [|x new IH]; [reflexivity|]. simpl.
    destruct (Hclean x (or_introl eq_refl)) as [_ ->].
    apply IH. intros y Hy. apply Hclean. right. exact Hy. }
  exists ([get_event; post_event; EvPrint (PContent (content g))] ++ new)%list.
  simpl. rewrite <- !app_assoc. simpl. rewrite Hg, Hp. simpl.
  repeat split; try lia.
  - destruct H as [H|[H|[H|H]]]; try discriminate.
    + injection H as <- <-. reflexivity.
    + destruct (Hclean _ H) as [Hx _]. discriminate.
  - destruct H as [H|[H|[H|H]]]; try discriminate.
    + injection H as <- <-. reflexivity.
    + destruct (Hclean _ H) as [Hx _]. discriminate.
  - destruct H as [H|[H|[H|H]]]; try discriminate.
    + injection H as <- <-. reflexivity.
    + destruct (Hclean _ H) as [_ Hx]. discriminate.
  - destruct H as [H|[H|[H|H]]]; try discriminate.
    + injection H as <- <-. reflexivity.
    + destruct (Hclean _ H) as [_ Hx]. discriminate.
Qed.

End PipelineEdges.

(** ** Concrete runs of the further properties *)

Lemma fetch_fruits_not_an_object_witness :
  json_loads (scripted []) (plain_dumps fruits) = Some fruits /\
  is_dict fruits = false /\
  fetch_fruits (scripted []) (call "call_1" "get_fruits" fruits) init
    = (Raised TypeError, init).
Proof.
  split; [reflexivity|]. split; [reflexivity|].
  exact (fetch_fruits_not_an_object (scripted []) "call_1" "get_fruits"
           (plain_dumps fruits) fruits init eq_refl eq_refl).
Defined.

Lemma fetch_fruits_first_missing_key_witness :
  first_missing [("nutrition_name", VStr "sugar")] = Some "min_value" /\
  fetch_fruits
    (double [args_only_name] (answer 200 fruits) (answer 200 fruits) [])
    (call "call_1" "get_fruits" args_only_name) init
    = (Raised (KeyError "min_value"), init).
Proof.
  split; [reflexivity|].
  exact (fetch_fruits_first_missing_key
           (double [args_only_name] (answer 200 fruits) (answer 200 fruits) [])
           "call_1" "get_fruits" (plain_dumps args_only_name)
           [("nutrition_name", VStr "sugar")] "min_value" init
           eq_refl eq_refl).
Defined.

Lemma fetch_fruits_ignores_status_witness :
  requests_get
    (double [range_args "sugar"; not_found] (answer 404 not_found)
       (answer 404 not_found) [])
    [] "https://www.fruityvice.com/api/fruit/sugar"
    [("min", VInt 0); ("max", VInt 5)]
    = inr {| status_code := 404; content := plain_dumps not_found |} /\
  fst (fetch_fruits
         (double [range_args "sugar"; not_found] (answer 404 not_found)
            (answer 404 not_found) [])
         sugar_call init)
    = Returned not_found.
Proof.
  split; [reflexivity|].
  exact (fetch_fruits_ignores_status
           (double [range_args "sugar"; not_found] (answer 404 not_found)
              (answer 404 not_found) [])
           "call_1" "get_fruits" (plain_dumps (range_args "sugar")) _
           (VInt 0) (VInt 5) (VStr "sugar") 404 (plain_dumps not_found) init
           eq_refl eq_refl eq_refl eq_refl eq_refl).
Defined.

Lemma fetch_fruits_same_three_values_witness :
  fetch_fruits
    (double [range_args "sugar"; args_reordered] (answer 200 fruits)
       (answer 200 fruits) [])
    (call "call_1" "get_fruits" (range_args "sugar")) init =
  fetch_fruits
    (double [range_args "sugar"; args_reordered] (answer 200 fruits)
       (answer 200 fruits) [])
    (call "call_2" "get_vegetables" args_reordered) init.
Proof.
  apply (fetch_fruits_same_three_values
           (double [range_args "sugar"; args_reordered] (answer 200 fruits)
              (answer 200 fruits) [])
           "call_1" "get_fruits" (plain_dumps (range_args "sugar"))
           [("nutrition_name", VStr "sugar"); ("min_value", VInt 0);
            ("max_value", VInt 5)]
           "call_2" "get_vegetables" (plain_dumps args_reordered)
           [("unit", VStr "g"); ("max_value", VInt 5);
            ("nutrition_name", VStr "sugar"); ("min_value", VInt 0)]
           init eq_refl eq_refl).
  intros k Hk. simpl in Hk.
  destruct Hk as [<-|[<-|[<-|[]]]]; reflexivity.
Defined.

Lemma fetch_fruits_returns_api_body_witness :
  fst (fetch_fruits (scripted []) sugar_call init) = Returned fruits /\
  exists url params api_res,
    trace (snd (fetch_fruits (scripted []) sugar_call init))
      = ([] ++ [EvGet url params])%list /\
    requests_get (scripted []) [] url params = inr api_res /\
    json_loads (scripted []) (content api_res) = Some fruits.
Proof.
  split; [reflexivity|].
  exact (fetch_fruits_returns_api_body (scripted []) sugar_call fruits init
           eq_refl).
Defined.

Lemma pipeline_empty_output_witness :
  output (tool_turn []) = [] /\
  pipeline (scripted [tool_turn []]) init
    = (Raised IndexError, {| inputs := seed; trace := [create_event] |}).
Proof.
  split; [reflexivity|].
  exact (pipeline_empty_output (scripted [tool_turn []]) init (tool_turn [])
           eq_refl eq_refl).
Defined.

Lemma pipeline_message_first_witness :
  pipeline (scripted [final_answer "done" None]) init
    = (Raised (AttributeError "call_id"),
       {| inputs := seed ++ [OutputItemEntry (Message "done")];
          trace := [create_event] |}).
Proof.
  exact (pipeline_message_first (scripted [final_answer "done" None]) init
           (final_answer "done" None) "done" [] eq_refl eq_refl).
Defined.

Lemma pipeline_returns_iff_witness :
  fst (pipeline batch init) = Returned tt.
Proof.
  apply (proj2 (proj1 (pipeline_returns_iff batch init))).
  exists (tool_turn [sugar_call; protein_call]), "call_1", "get_fruits",
         (plain_dumps (range_args "sugar")), [protein_call],
         (final_answer "done" None).
  repeat split.
Defined.

Lemma script_template_failure_witness :
  requests_get
    (double [] connection_error (answer 200 fruits) [tool_turn [sugar_call]])
    [] url_1 request_data
    = inl (LibraryError "requests.exceptions.ConnectionError") /\
  fst (script
         (double [] connection_error (answer 200 fruits)
            [tool_turn [sugar_call]]) init)
    = Raised (LibraryError "requests.exceptions.ConnectionError") /\
  service_calls
    (trace (snd (script
                   (double [] connection_error (answer 200 fruits)
                      [tool_turn [sugar_call]]) init))) = 0.
Proof.
  split; [reflexivity|].
  destruct (script_template_failure
              (double [] connection_error (answer 200 fruits)
                 [tool_turn [sugar_call]])
              init (LibraryError "requests.exceptions.ConnectionError")
              (or_introl eq_refl)) as (Hres & _ & Hcalls & _).
  split; [exact Hres|exact Hcalls].
Defined.
